(** * pypervisor: code_generation/ioctls.c

    A shallow embedding of the constant reporter [code_generation/ioctls.c]
    and the properties of it that the specification states.

    The program is seven [printf] statements in a [void main()].  Its only
    dependencies are the C library's [printf] and the constants of the
    platform header [<linux/kvm.h>].  The header is a parameter of the
    model ([kvm_h]); module [LinuxUapi] transcribes the definitions the
    Linux header gives for the seven constants. *)

From Stdlib Require Import ZArith List String Ascii Bool Lia.
Import ListNotations.

Local Open Scope string_scope.
Local Open Scope Z_scope.

(* ================================================================= *)
(** ** C integer constants *)

(** The integer types a constant expression of the header can have.
    Widths are those of the LP64 data model (64-bit Linux). *)
Inductive ctype : Type := Tint | Tuint | Tlong | Tulong.

Definition ctype_eqb (a b : ctype) : bool :=
  match a, b with
  | Tint, Tint | Tuint, Tuint | Tlong, Tlong | Tulong, Tulong => true
  | _, _ => false
  end.

Definition ctype_bits (t : ctype) : Z :=
  match t with
  | Tint | Tuint => 32
  | Tlong | Tulong => 64
  end.

Definition ctype_unsigned (t : ctype) : bool :=
  match t with
  | Tuint | Tulong => true
  | Tint | Tlong => false
  end.

(** A constant expression after preprocessing: its type and its value. *)
Record cconst : Type := mkconst { ctype_of : ctype; value_of : Z }.

(** [ULONG_MAX] of <limits.h> on LP64. *)
Definition ULONG_MAX : Z := 2 ^ 64 - 1.

(** Conversion to [unsigned long]: reduction modulo [ULONG_MAX + 1]. *)
Definition to_ulong (v : Z) : Z := v mod (ULONG_MAX + 1).

(* ================================================================= *)
(** ** The platform header *)

(** What [#include <linux/kvm.h>] brings into scope for [main]: the seven
    constants it names.  Their values and types are the platform's. *)
Record kvm_h : Type := {
  KVM_GET_API_VERSION : cconst;
  KVM_CREATE_VM : cconst;
  KVM_SET_USER_MEMORY_REGION : cconst;
  KVM_CREATE_VCPU : cconst;
  KVM_GET_VCPU_MMAP_SIZE : cconst;
  KVM_GET_SREGS : cconst;
  KVM_SET_SREGS : cconst
}.

(* ================================================================= *)
(** ** The C library: formatted output *)

Definition digit_char (d : Z) : ascii := ascii_of_nat (48 + Z.to_nat d).

(** Decimal conversion of an unsigned value, least significant digit
    first, prepending to [acc]: the do-while loop of a C library.  [fuel]
    bounds the number of further digits. *)
Fixpoint utoa (fuel : nat) (n : Z) (acc : string) : string :=
  let acc' := String (digit_char (n mod 10)) acc in
  match fuel with
  | O => acc'
  | S fuel' => if n / 10 =? 0 then acc' else utoa fuel' (n / 10) acc'
  end.

(** An [unsigned long] has at most 20 decimal digits. *)
Definition ULONG_DIGITS : nat := 20.

(** The [%lu] conversion: the argument slot read as an [unsigned long]
    and written in decimal.  The slot is taken to hold the argument's
    value modulo [ULONG_MAX + 1] whatever its type; for the non-negative
    values of a header of unsigned constants this is what a 32-bit
    argument, zero-extended, holds as well. *)
Definition conv_lu (a : cconst) : string :=
  utoa (pred ULONG_DIGITS) (to_ulong (value_of a)) "".

(** Expansion of a format string against its arguments.  The conversions
    handled are [%lu] and [%%]; any other conversion, or a conversion with
    no argument left, has no defined result ([None]). *)
Fixpoint vformat (fmt : string) (args : list cconst) : option string :=
  match fmt with
  | EmptyString => Some EmptyString
  | String "%" (String "l" (String "u" rest)) =>
      match args with
      | a :: args' => option_map (append (conv_lu a)) (vformat rest args')
      | [] => None
      end
  | String "%" (String "%" rest) => option_map (String "%") (vformat rest args)
  | String "%" _ => None
  | String c rest => option_map (String c) (vformat rest args)
  end.

(** The argument types a format string expects, one per conversion. *)
Fixpoint expected_types (fmt : string) : list ctype :=
  match fmt with
  | EmptyString => []
  | String "%" (String "l" (String "u" rest)) => Tulong :: expected_types rest
  | String "%" (String "%" rest) => expected_types rest
  | String _ rest => expected_types rest
  end.

Fixpoint types_agree (expected actual : list ctype) : bool :=
  match expected, actual with
  | [], [] => true
  | e :: es, a :: acts => ctype_eqb e a && types_agree es acts
  | _, _ => false
  end.

(** The check a compiler makes on a [printf] call ([-Wformat]): each
    argument has the type its conversion specifier expects. *)
Definition format_args_agree (fmt : string) (args : list cconst) : bool :=
  types_agree (expected_types fmt) (map ctype_of args).

(* ================================================================= *)
(** ** The process and its environment *)

(** One call of [printf], as the process made it, with the value it
    returned. *)
Record event : Type := Printf {
  ev_format : string;
  ev_args : list cconst;
  ev_result : Z
}.

Record world : Type := mkworld {
  argv : list string;                 (* command-line arguments *)
  environ : list (string * string);   (* environment variables *)
  files : list (string * string);     (* file system: path, contents *)
  stdin_rest : string;                (* unread standard input *)
  stdout : string;                    (* bytes delivered to standard output *)
  stdout_error : bool;                (* error indicator of the stream *)
  stderr : string;                    (* bytes delivered to standard error *)
  stdout_accepts : nat -> bool;       (* platform: is the n-th write accepted *)
  trace : list event;                 (* library calls made, oldest first *)
  ret_reg : Z                         (* return-value register *)
}.

(** A write to standard output that the platform accepts. *)
Definition deliver (fmt : string) (args : list cconst) (s : string)
    (w : world) : world :=
  let n := Z.of_nat (String.length s) in
  mkworld (argv w) (environ w) (files w) (stdin_rest w)
          (stdout w ++ s)%string (stdout_error w) (stderr w) (stdout_accepts w)
          (trace w ++ [Printf fmt args n])%list n.

(** A write to standard output that the platform refuses. *)
Definition refuse (fmt : string) (args : list cconst) (w : world) : world :=
  mkworld (argv w) (environ w) (files w) (stdin_rest w)
          (stdout w) true (stderr w) (stdout_accepts w)
          (trace w ++ [Printf fmt args (-1)])%list (-1).

(** Computations of the process: a state monad over [world]; [None] is
    undefined behaviour. *)
Definition M (A : Type) : Type := world -> option (A * world).

Definition ret {A : Type} (a : A) : M A := fun w => Some (a, w).

Definition bind {A B : Type} (m : M A) (f : A -> M B) : M B :=
  fun w =>
    match m w with
    | Some (a, w') => f a w'
    | None => None
    end.

(** A statement whose value is discarded, followed by the rest. *)
Notation "e1 ;; e2" := (bind e1 (fun _ => e2))
  (at level 61, right associativity).

(** [int printf(const char *format, ...)]: the number of characters
    written, or a negative value when the output fails. *)
Definition printf (fmt : string) (args : list cconst) : M Z :=
  fun w =>
    match vformat fmt args with
    | None => None
    | Some s =>
        if stdout_accepts w (List.length (trace w))
        then Some (Z.of_nat (String.length s), deliver fmt args s w)
        else Some (-1, refuse fmt args w)
    end.

(* ================================================================= *)
(** ** The program *)

Definition NL : string := String (ascii_of_nat 10) "".

Section Program.

Variable h : kvm_h.

(** [void main()]: seven statements, no [return]. *)
Definition main : M unit :=
  printf ("KVM_GET_API_VERSION = %lu" ++ NL) [KVM_GET_API_VERSION h] ;;
  printf ("KVM_CREATE_VM = %lu" ++ NL) [KVM_CREATE_VM h] ;;
  printf ("KVM_SET_USER_MEMORY_REGION = %lu" ++ NL)
         [KVM_SET_USER_MEMORY_REGION h] ;;
  printf ("KVM_CREATE_VCPU = %lu" ++ NL) [KVM_CREATE_VCPU h] ;;
  printf ("KVM_GET_VCPU_MMAP_SIZE = %lu" ++ NL) [KVM_GET_VCPU_MMAP_SIZE h] ;;
  printf ("KVM_GET_SREGS = %lu" ++ NL) [KVM_GET_SREGS h] ;;
  printf ("KVM_SET_SREGS = %lu" ++ NL) [KVM_SET_SREGS h] ;;
  ret tt.

(** The status the host sees.  The C startup code passes the [int] that
    [main] returns to [exit]; [main] is [void] and returns nothing, so
    what is read is the value the last call left in the return
    register.  The host keeps the low eight bits. *)
Definition exit_status (w : world) : Z := ret_reg w mod 256.

(** One run of the process: final world and exit status. *)
Definition run (w : world) : option (world * Z) :=
  match main w with
  | Some (_, w') => Some (w', exit_status w')
  | None => None
  end.

End Program.

(* ================================================================= *)
(** ** The Linux header *)

(** The definitions that the Linux UAPI headers [<linux/kvm.h>] and
    [<asm-generic/ioctl.h>] give for the constants [main] names,
    evaluated as C constant expressions on LP64.  These headers belong to
    the platform, not to the repository; the sizes of the two structures
    an ioctl number encodes depend on the architecture and are
    parameters. *)
Module LinuxUapi.

(** Conversion of a value to an integer type. *)
Definition wrap (t : ctype) (v : Z) : Z :=
  let m := 2 ^ ctype_bits t in
  if ctype_unsigned t then v mod m else (v + m / 2) mod m - m / 2.

(** The usual arithmetic conversions, for types of rank [int] and up. *)
Definition usual_arith (a b : ctype) : ctype :=
  match a, b with
  | Tulong, _ | _, Tulong => Tulong
  | Tlong, _ | _, Tlong => Tlong
  | Tuint, _ | _, Tuint => Tuint
  | Tint, Tint => Tint
  end.

(** [a << k]: the type is that of the left operand. *)
Definition c_shl (a : cconst) (k : Z) : cconst :=
  mkconst (ctype_of a) (wrap (ctype_of a) (Z.shiftl (value_of a) k)).

(** [a | b]: both operands converted to the common type. *)
Definition c_or (a b : cconst) : cconst :=
  let t := usual_arith (ctype_of a) (ctype_of b) in
  mkconst t (Z.lor (wrap t (value_of a)) (wrap t (value_of b))).

(** Literals: [0xAE] is an [int], [1U] an [unsigned int], and [sizeof]
    yields a [size_t], which is [unsigned long]. *)
Definition int_lit (v : Z) : cconst := mkconst Tint v.
Definition uint_lit (v : Z) : cconst := mkconst Tuint v.
Definition sizeof (bytes : Z) : cconst := mkconst Tulong bytes.

Definition _IOC_NRBITS : Z := 8.
Definition _IOC_TYPEBITS : Z := 8.
Definition _IOC_SIZEBITS : Z := 14.
Definition _IOC_NRSHIFT : Z := 0.
Definition _IOC_TYPESHIFT : Z := _IOC_NRSHIFT + _IOC_NRBITS.
Definition _IOC_SIZESHIFT : Z := _IOC_TYPESHIFT + _IOC_TYPEBITS.
Definition _IOC_DIRSHIFT : Z := _IOC_SIZESHIFT + _IOC_SIZEBITS.

Definition _IOC_NONE : cconst := uint_lit 0.
Definition _IOC_WRITE : cconst := uint_lit 1.
Definition _IOC_READ : cconst := uint_lit 2.

Definition _IOC (dir type nr size : cconst) : cconst :=
  c_or (c_or (c_or (c_shl dir _IOC_DIRSHIFT)
                   (c_shl type _IOC_TYPESHIFT))
             (c_shl nr _IOC_NRSHIFT))
       (c_shl size _IOC_SIZESHIFT).

Definition _IO (type nr : cconst) : cconst :=
  _IOC _IOC_NONE type nr (int_lit 0).
Definition _IOR (type nr : cconst) (size : Z) : cconst :=
  _IOC _IOC_READ type nr (sizeof size).
Definition _IOW (type nr : cconst) (size : Z) : cconst :=
  _IOC _IOC_WRITE type nr (sizeof size).

Definition KVMIO : cconst := int_lit 0xAE.

Section Header.

(** [sizeof(struct kvm_userspace_memory_region)] and
    [sizeof(struct kvm_sregs)]. *)
Variables sizeof_memory_region sizeof_sregs : Z.

Definition kvm : kvm_h := {|
  KVM_GET_API_VERSION := _IO KVMIO (int_lit 0x00);
  KVM_CREATE_VM := _IO KVMIO (int_lit 0x01);
  KVM_SET_USER_MEMORY_REGION :=
    _IOW KVMIO (int_lit 0x46) sizeof_memory_region;
  KVM_CREATE_VCPU := _IO KVMIO (int_lit 0x41);
  KVM_GET_VCPU_MMAP_SIZE := _IO KVMIO (int_lit 0x04);
  KVM_GET_SREGS := _IOR KVMIO (int_lit 0x83) sizeof_sregs;
  KVM_SET_SREGS := _IOW KVMIO (int_lit 0x84) sizeof_sregs
|}.

End Header.

(** x86-64: the memory region structure has 32 bytes, [struct
    kvm_sregs] 312. *)
Definition x86_64 : kvm_h := kvm 32 312.

End LinuxUapi.

(* ================================================================= *)
(** ** Vocabulary of the specification *)

(** The names and the constants, in the order [main] prints them. *)
Definition names : list string :=
  [ "KVM_GET_API_VERSION"; "KVM_CREATE_VM"; "KVM_SET_USER_MEMORY_REGION";
    "KVM_CREATE_VCPU"; "KVM_GET_VCPU_MMAP_SIZE"; "KVM_GET_SREGS";
    "KVM_SET_SREGS" ].

Definition constants (h : kvm_h) : list cconst :=
  [ KVM_GET_API_VERSION h; KVM_CREATE_VM h; KVM_SET_USER_MEMORY_REGION h;
    KVM_CREATE_VCPU h; KVM_GET_VCPU_MMAP_SIZE h; KVM_GET_SREGS h;
    KVM_SET_SREGS h ].

(** The format string of the call that prints [name], and the line it
    expands to: the name, [" = "], the value field, a newline. *)
Definition format_of (name : string) : string := name ++ " = %lu" ++ NL.

Definition line_of (name value : string) : string :=
  name ++ " = " ++ value ++ NL.

Definition call_line (nc : string * cconst) : string :=
  line_of (fst nc) (conv_lu (snd nc)).

Definition lines (h : kvm_h) : list string :=
  map call_line (combine names (constants h)).

Definition output (h : kvm_h) : string := fold_right append "" (lines h).

(** The value fields of the lines. *)
Definition printed_values (h : kvm_h) : list string :=
  map conv_lu (constants h).

(** One statement of [main]: the call is made, and the platform accepts
    or refuses the write. *)
Definition attempt (w : world) (nc : string * cconst) : world :=
  if stdout_accepts w (List.length (trace w))
  then deliver (format_of (fst nc)) [snd nc] (call_line nc) w
  else refuse (format_of (fst nc)) [snd nc] w.

(** The platform accepts the writes numbered [k], ..., [k + n - 1]. *)
Fixpoint accepts_from (ok : nat -> bool) (k n : nat) : bool :=
  match n with
  | O => true
  | S n' => ok k && accepts_from ok (S k) n'
  end.

(** A normal run: all seven writes succeed. *)
Definition normal_run (w : world) : bool :=
  accepts_from (stdout_accepts w) (List.length (trace w)) 7.

(** What reaches standard output of the lines [ls] written as writes
    [k], [k + 1], ... *)
Fixpoint delivered (ok : nat -> bool) (k : nat) (ls : list string) : string :=
  match ls with
  | [] => ""
  | l :: rest => (if ok k then l else "") ++ delivered ok (S k) rest
  end.

(** The calls a list of events records, without their results. *)
Definition calls_of (evs : list event) : list (string * list cconst) :=
  map (fun e => (ev_format e, ev_args e)) evs.

(** The same process state started with other inputs. *)
Definition with_inputs (a : list string) (e f : list (string * string))
    (i : string) (w : world) : world :=
  mkworld a e f i (stdout w) (stdout_error w) (stderr w)
          (stdout_accepts w) (trace w) (ret_reg w).

(** Complete lines of a text, and the unterminated rest after the last
    newline. *)
Fixpoint split_lines_from (cur s : string) : list string * string :=
  match s with
  | EmptyString => ([], cur)
  | String c rest =>
      if Ascii.eqb c (ascii_of_nat 10)
      then let (ls, tl) := split_lines_from "" rest in (cur :: ls, tl)
      else split_lines_from (cur ++ String c "") rest
  end.

Definition split_lines (s : string) : list string * string :=
  split_lines_from "" s.

(** No character of [s] is a newline. *)
Fixpoint no_newline (s : string) : bool :=
  match s with
  | EmptyString => true
  | String c rest => negb (Ascii.eqb c (ascii_of_nat 10)) && no_newline rest
  end.

(** Decimal numerals. *)
Definition is_digit (c : ascii) : bool :=
  ((48 <=? nat_of_ascii c) && (nat_of_ascii c <=? 57))%nat.

Fixpoint all_digits (s : string) : bool :=
  match s with
  | EmptyString => true
  | String c rest => is_digit c && all_digits rest
  end.

Definition digit_value (c : ascii) : Z := Z.of_nat (nat_of_ascii c) - 48.

Fixpoint atou_from (k : Z) (s : string) : Z :=
  match s with
  | EmptyString => k
  | String c rest => atou_from (10 * k + digit_value c) rest
  end.

(** The number a numeral denotes. *)
Definition atou (s : string) : Z := atou_from 0 s.

(** [d] is the decimal representation of [v]: a non-empty string of
    digits denoting [v], without a leading zero unless it is ["0"]. *)
Definition decimal_of (v : Z) (d : string) : Prop :=
  all_digits d = true /\ atou d = v /\
  (d = "0" \/ exists c rest, d = String c rest /\ c <> "0"%char).

(** A line of the form [NAME = <non-negative integer>]. *)
Definition line_shape (name l : string) : Prop :=
  exists d, l = name ++ " = " ++ d /\ d <> "" /\ all_digits d = true.

(** The arguments of the calls agree with the format strings. *)
Definition event_agrees (e : event) : bool :=
  format_args_agree (ev_format e) (ev_args e).

(** A world at process start: nothing written yet, every write accepted. *)
Definition quiet_world : world :=
  mkworld [] [] [] "" "" false "" (fun _ => true) [] 0.

(** The same start with standard output closed: every write refused. *)
Definition closed_stdout_world : world :=
  mkworld [] [] [] "" "" false "" (fun _ => false) [] 0.

(** A start with arguments, an environment, a file and pending input. *)
Definition busy_world : world :=
  with_inputs ["ioctls"; "--verbose"] [("HOME", "/root")]
              [("/dev/kvm", "")] "y" quiet_world.

(** A header with each constant converted to [unsigned long], as the
    cast [(unsigned long) KVM_...] would give it. *)
Definition as_ulong (c : cconst) : cconst := mkconst Tulong (to_ulong (value_of c)).

Definition cast_to_ulong (h : kvm_h) : kvm_h := {|
  KVM_GET_API_VERSION := as_ulong (KVM_GET_API_VERSION h);
  KVM_CREATE_VM := as_ulong (KVM_CREATE_VM h);
  KVM_SET_USER_MEMORY_REGION := as_ulong (KVM_SET_USER_MEMORY_REGION h);
  KVM_CREATE_VCPU := as_ulong (KVM_CREATE_VCPU h);
  KVM_GET_VCPU_MMAP_SIZE := as_ulong (KVM_GET_VCPU_MMAP_SIZE h);
  KVM_GET_SREGS := as_ulong (KVM_GET_SREGS h);
  KVM_SET_SREGS := as_ulong (KVM_SET_SREGS h)
|}.


(* ================================================================= *)
(** ** The decimal conversion *)

Section Decimal.

Lemma digit_char_spec (d : Z) :
  0 <= d < 10 ->
  is_digit (digit_char d) = true /\
  digit_value (digit_char d) = d /\
  (d <> 0 -> digit_char d <> "0"%char).
Proof.
  intros Hd.
  assert (Hcases : d = 0 \/ d = 1 \/ d = 2 \/ d = 3 \/ d = 4 \/
                   d = 5 \/ d = 6 \/ d = 7 \/ d = 8 \/ d = 9) by lia.
  repeat (destruct Hcases as [-> | Hcases]); try subst d;
    (split; [reflexivity | split; [reflexivity | ]]);
    intros Hnz; try (exfalso; apply Hnz; reflexivity);
    vm_compute; discriminate.
Qed.

Lemma last_digit_range (n : Z) : 0 <= n mod 10 < 10.
Proof. apply Z.mod_pos_bound; lia. Qed.

Lemma utoa_all_digits (fuel : nat) :
  forall n acc, all_digits acc = true -> all_digits (utoa fuel n acc) = true.
Proof.
  induction fuel as [| fuel IH]; intros n acc Hacc;
    cbn [utoa all_digits].
  - rewrite Hacc, (proj1 (digit_char_spec _ (last_digit_range n))).
    reflexivity.
  - assert (Hstep : is_digit (digit_char (n mod 10)) && all_digits acc = true)
      by (rewrite Hacc, (proj1 (digit_char_spec _ (last_digit_range n)));
          reflexivity).
    destruct (n / 10 =? 0); [exact Hstep | apply IH; exact Hstep].
Qed.

Lemma utoa_length (fuel : nat) :
  forall n acc,
    (String.length acc < String.length (utoa fuel n acc)
     <= String.length acc + S fuel)%nat.
Proof.
  induction fuel as [| fuel IH]; intros n acc; cbn [utoa String.length].
  - lia.
  - destruct (n / 10 =? 0); cbn [String.length].
    + lia.
    + specialize (IH (n / 10) (String (digit_char (n mod 10)) acc)).
      cbn [String.length] in IH. lia.
Qed.

Lemma atou_from_last_digit (n : Z) (acc : string) :
  0 <= n ->
  atou_from (n / 10) (String (digit_char (n mod 10)) acc) = atou_from n acc.
Proof.
  intros Hn. cbn [atou_from].
  rewrite (proj1 (proj2 (digit_char_spec _ (last_digit_range n)))).
  f_equal. pose proof (Z.div_mod n 10). lia.
Qed.

Lemma utoa_atou_from (fuel : nat) :
  forall n acc,
    0 <= n < 10 ^ Z.of_nat (S fuel) ->
    atou_from 0 (utoa fuel n acc) = atou_from n acc.
Proof.
  induction fuel as [| fuel IH]; intros n acc Hn.
  - change (10 ^ Z.of_nat 1) with 10 in Hn. cbn [utoa].
    rewrite <- (atou_from_last_digit n acc) by lia.
    rewrite (Z.div_small n 10) by lia. reflexivity.
  - cbn [utoa]. destruct (Z.eqb_spec (n / 10) 0) as [Hq | Hq].
    + rewrite <- (atou_from_last_digit n acc) by lia.
      rewrite Hq. reflexivity.
    + rewrite IH.
      * apply atou_from_last_digit; lia.
      * rewrite Nat2Z.inj_succ, Z.pow_succ_r in Hn by lia.
        split; [apply Z.div_pos; lia | apply Z.div_lt_upper_bound; lia].
Qed.

Lemma utoa_zero (fuel : nat) : utoa fuel 0 "" = "0".
Proof. destruct fuel; reflexivity. Qed.

Lemma utoa_head (fuel : nat) :
  forall n acc,
    0 < n < 10 ^ Z.of_nat (S fuel) ->
    exists c rest, utoa fuel n acc = String c rest /\ c <> "0"%char.
Proof.
  induction fuel as [| fuel IH]; intros n acc Hn.
  - change (10 ^ Z.of_nat 1) with 10 in Hn. cbn [utoa].
    exists (digit_char (n mod 10)), acc. split; [reflexivity |].
    apply digit_char_spec; [apply last_digit_range |].
    rewrite Z.mod_small; lia.
  - cbn [utoa]. destruct (Z.eqb_spec (n / 10) 0) as [Hq | Hq].
    + exists (digit_char (n mod 10)), acc. split; [reflexivity |].
      apply digit_char_spec; [apply last_digit_range |].
      pose proof (Z.div_mod n 10). lia.
    + apply IH.
      rewrite Nat2Z.inj_succ, Z.pow_succ_r in Hn by lia.
      assert (0 <= n / 10) by (apply Z.div_pos; lia).
      split; [lia | apply Z.div_lt_upper_bound; lia].
Qed.

Lemma to_ulong_range (v : Z) : 0 <= to_ulong v <= ULONG_MAX.
Proof.
  unfold to_ulong.
  assert (0 < ULONG_MAX + 1) by (vm_compute; reflexivity).
  pose proof (Z.mod_pos_bound v (ULONG_MAX + 1)). lia.
Qed.

Lemma to_ulong_id (v : Z) : 0 <= v <= ULONG_MAX -> to_ulong v = v.
Proof. intros Hv. unfold to_ulong. apply Z.mod_small. lia. Qed.

Lemma ulong_fits_digits (v : Z) :
  0 <= v <= ULONG_MAX -> 0 <= v < 10 ^ Z.of_nat (S (pred ULONG_DIGITS)).
Proof.
  intros Hv.
  assert (ULONG_MAX < 10 ^ Z.of_nat (S (pred ULONG_DIGITS)))
    by (vm_compute; reflexivity).
  lia.
Qed.

(** The value field is the decimal representation of the argument read
    as an [unsigned long]. *)
Lemma conv_lu_decimal (c : cconst) :
  decimal_of (to_ulong (value_of c)) (conv_lu c).
Proof.
  pose proof (to_ulong_range (value_of c)) as Hr.
  pose proof (ulong_fits_digits _ Hr) as Hfit.
  unfold decimal_of, conv_lu. split; [| split].
  - apply utoa_all_digits. reflexivity.
  - unfold atou. rewrite utoa_atou_from by exact Hfit. reflexivity.
  - destruct (Z.eq_dec (to_ulong (value_of c)) 0) as [Hz | Hnz].
    + left. rewrite Hz. apply utoa_zero.
    + right. apply utoa_head. lia.
Qed.

Lemma conv_lu_length (c : cconst) :
  (1 <= String.length (conv_lu c) <= ULONG_DIGITS)%nat.
Proof.
  unfold conv_lu.
  pose proof (utoa_length (pred ULONG_DIGITS) (to_ulong (value_of c)) "") as H.
  unfold ULONG_DIGITS in *. cbn [String.length pred] in *. lia.
Qed.

Lemma conv_lu_nonempty (c : cconst) : conv_lu c <> "".
Proof.
  pose proof (conv_lu_length c) as H. intros Heq. rewrite Heq in H.
  cbn [String.length] in H. lia.
Qed.



End Decimal.

(* ================================================================= *)
(** ** Execution of [main] *)

Section Execution.

Lemma printf_then (fmt name : string) (c : cconst) (k : M unit) (w : world) :
  fmt = format_of name ->
  vformat fmt [c] = Some (call_line (name, c)) ->
  (printf fmt [c] ;; k) w = k (attempt w (name, c)).
Proof.
  intros -> Hfmt. unfold bind, printf, attempt. rewrite Hfmt.
  cbn [fst snd]. destruct (stdout_accepts w (List.length (trace w)));
    reflexivity.
Qed.

(** [main] is its seven statements, one after the other, whatever the
    outcome of each. *)
Lemma main_eq (h : kvm_h) (w : world) :
  main h w = Some (tt, fold_left attempt (combine names (constants h)) w).
Proof.
  unfold main.
  rewrite (printf_then _ "KVM_GET_API_VERSION") by reflexivity.
  rewrite (printf_then _ "KVM_CREATE_VM") by reflexivity.
  rewrite (printf_then _ "KVM_SET_USER_MEMORY_REGION") by reflexivity.
  rewrite (printf_then _ "KVM_CREATE_VCPU") by reflexivity.
  rewrite (printf_then _ "KVM_GET_VCPU_MMAP_SIZE") by reflexivity.
  rewrite (printf_then _ "KVM_GET_SREGS") by reflexivity.
  rewrite (printf_then _ "KVM_SET_SREGS") by reflexivity.
  reflexivity.
Qed.

Lemma attempt_trace (w : world) (nc : string * cconst) :
  exists r,
    trace (attempt w nc) =
    (trace w ++ [Printf (format_of (fst nc)) [snd nc] r])%list.
Proof.
  unfold attempt.
  destruct (stdout_accepts w (List.length (trace w))); eexists; reflexivity.
Qed.

Lemma attempt_accepts (w : world) (nc : string * cconst) :
  stdout_accepts (attempt w nc) = stdout_accepts w.
Proof.
  unfold attempt.
  destruct (stdout_accepts w (List.length (trace w))); reflexivity.
Qed.

Lemma attempt_trace_length (w : world) (nc : string * cconst) :
  List.length (trace (attempt w nc)) = S (List.length (trace w)).
Proof.
  destruct (attempt_trace w nc) as [r ->].
  rewrite length_app. cbn [List.length]. lia.
Qed.

(** The calls made do not depend on what the platform does with them. *)
Lemma fold_attempt_trace (l : list (string * cconst)) :
  forall w, exists evs,
    trace (fold_left attempt l w) = (trace w ++ evs)%list /\
    calls_of evs = map (fun nc => (format_of (fst nc), [snd nc])) l.
Proof.
  induction l as [| nc l IH]; intros w; cbn [fold_left map].
  - exists []. rewrite app_nil_r. split; reflexivity.
  - destruct (IH (attempt w nc)) as (evs & Htr & Hcalls).
    destruct (attempt_trace w nc) as [r Hr].
    exists (Printf (format_of (fst nc)) [snd nc] r :: evs).
    rewrite Htr, Hr, <- app_assoc. split; [reflexivity |].
    unfold calls_of in *. cbn [map ev_format ev_args]. rewrite Hcalls.
    reflexivity.
Qed.

Lemma fold_attempt_frame (l : list (string * cconst)) :
  forall w,
    let w' := fold_left attempt l w in
    argv w' = argv w /\ environ w' = environ w /\ files w' = files w /\
    stdin_rest w' = stdin_rest w /\ stderr w' = stderr w /\
    stdout_accepts w' = stdout_accepts w.
Proof.
  induction l as [| nc l IH]; intros w; cbn [fold_left].
  - repeat split.
  - specialize (IH (attempt w nc)). cbv zeta in IH.
    destruct IH as (-> & -> & -> & -> & -> & ->).
    unfold attempt.
    destruct (stdout_accepts w (List.length (trace w))); repeat split.
Qed.

Lemma fold_attempt_stdout (l : list (string * cconst)) :
  forall w,
    stdout (fold_left attempt l w) =
    stdout w ++
    delivered (stdout_accepts w) (List.length (trace w)) (map call_line l).
Proof.
  induction l as [| nc l IH]; intros w; cbn [fold_left map delivered].
  - clear. induction (stdout w) as [| c s IHs]; cbn [append];
      [reflexivity | rewrite <- IHs; reflexivity].
  - rewrite IH, attempt_accepts, attempt_trace_length.
    unfold attempt.
    destruct (stdout_accepts w (List.length (trace w)));
      cbn [stdout deliver refuse append].
    + clear. generalize (call_line nc) as a.
      generalize (delivered (stdout_accepts w) (S (List.length (trace w)))
                    (map call_line l)) as b.
      intros b a. induction (stdout w) as [| c s IHs]; cbn [append];
        [reflexivity | rewrite IHs; reflexivity].
    + reflexivity.
Qed.

Lemma delivered_all (ok : nat -> bool) (ls : list string) :
  forall k,
    accepts_from ok k (List.length ls) = true ->
    delivered ok k ls = fold_right append "" ls.
Proof.
  induction ls as [| l ls IH]; intros k Hok;
    cbn [delivered fold_right List.length accepts_from] in *.
  - reflexivity.
  - apply andb_true_iff in Hok. destruct Hok as [-> Hok].
    rewrite IH by exact Hok. reflexivity.
Qed.


Lemma fold_attempt_error (l : list (string * cconst)) :
  forall w,
    stdout_error (fold_left attempt l w) =
    stdout_error w ||
    negb (accepts_from (stdout_accepts w) (List.length (trace w))
            (List.length l)).
Proof.
  induction l as [| nc l IH]; intros w;
    cbn [fold_left List.length accepts_from].
  - rewrite orb_false_r. reflexivity.
  - rewrite IH, attempt_accepts, attempt_trace_length. unfold attempt.
    destruct (stdout_accepts w (List.length (trace w)));
      cbn [stdout_error deliver refuse andb negb].
    + reflexivity.
    + rewrite orb_true_r. reflexivity.
Qed.

Lemma fold_attempt_with_inputs (a : list string)
    (e f : list (string * string)) (i : string)
    (l : list (string * cconst)) :
  forall w,
    fold_left attempt l (with_inputs a e f i w) =
    with_inputs a e f i (fold_left attempt l w).
Proof.
  induction l as [| nc l IH]; intros w; cbn [fold_left].
  - reflexivity.
  - rewrite <- IH. f_equal. unfold attempt, with_inputs.
    cbn [stdout_accepts trace].
    destruct (stdout_accepts w (List.length (trace w))); reflexivity.
Qed.

(** After a run of accepted writes the return register holds the
    length of the last line. *)
Lemma fold_attempt_ret_reg (l : list (string * cconst)) :
  forall w nc,
    accepts_from (stdout_accepts w) (List.length (trace w))
      (S (List.length l)) = true ->
    ret_reg (fold_left attempt (l ++ [nc]) w) =
    Z.of_nat (String.length (call_line nc)).
Proof.
  induction l as [| x l IH]; intros w nc Hok;
    cbn [fold_left app List.length accepts_from] in *.
  - apply andb_true_iff in Hok. destruct Hok as [Hok _].
    unfold attempt. rewrite Hok. reflexivity.
  - apply andb_true_iff in Hok. destruct Hok as [_ Hok].
    apply IH. rewrite attempt_accepts, attempt_trace_length. exact Hok.
Qed.

End Execution.

(* ================================================================= *)
(** ** The text written *)

Section Text.

Lemma append_empty_r (s : string) : s ++ "" = s.
Proof. induction s as [| c s IH]; cbn [append]; congruence. Qed.

Lemma append_assoc_str (a b c : string) : (a ++ b) ++ c = a ++ (b ++ c).
Proof. induction a as [| x a IH]; cbn [append]; congruence. Qed.

Lemma length_append_str (a b : string) :
  String.length (a ++ b) = (String.length a + String.length b)%nat.
Proof. induction a as [| x a IH]; cbn [append String.length]; lia. Qed.


Lemma no_newline_app (a b : string) :
  no_newline (a ++ b) = no_newline a && no_newline b.
Proof.
  induction a as [| c a IH]; cbn [append no_newline];
    [reflexivity | rewrite IH, andb_assoc; reflexivity].
Qed.

Lemma is_digit_not_newline (c : ascii) :
  is_digit c = true -> Ascii.eqb c (ascii_of_nat 10) = false.
Proof.
  intros Hd. destruct (Ascii.eqb_spec c (ascii_of_nat 10)) as [-> | _];
    [discriminate Hd | reflexivity].
Qed.

Lemma all_digits_no_newline (s : string) :
  all_digits s = true -> no_newline s = true.
Proof.
  induction s as [| c s IH]; cbn [all_digits no_newline]; intros H.
  - reflexivity.
  - apply andb_true_iff in H. destruct H as [Hc Hs].
    rewrite (is_digit_not_newline c Hc), IH by exact Hs. reflexivity.
Qed.

Lemma split_lines_from_line (a : string) :
  forall cur rest,
    no_newline a = true ->
    split_lines_from cur (a ++ NL ++ rest) =
    let (ls, tl) := split_lines_from "" rest in ((cur ++ a) :: ls, tl).
Proof.
  induction a as [| c a IH]; intros cur rest Ha;
    cbn [append no_newline] in *.
  - unfold NL. cbn [append split_lines_from]. rewrite Ascii.eqb_refl.
    rewrite append_empty_r. reflexivity.
  - apply andb_true_iff in Ha. destruct Ha as [Hc Ha].
    apply negb_true_iff in Hc. cbn [split_lines_from]. rewrite Hc.
    rewrite IH by exact Ha. rewrite append_assoc_str. reflexivity.
Qed.

(** A text made of terminated lines splits back into them. *)
Lemma split_lines_terminated (nvs : list (string * string)) :
  Forall (fun nv => no_newline (fst nv ++ " = " ++ snd nv) = true) nvs ->
  split_lines
    (fold_right append "" (map (fun nv => line_of (fst nv) (snd nv)) nvs)) =
  (map (fun nv => fst nv ++ " = " ++ snd nv) nvs, "").
Proof.
  unfold split_lines. induction 1 as [| nv nvs Hnv _ IH];
    cbn [map fold_right].
  - reflexivity.
  - unfold line_of at 1.
    replace ((fst nv ++ " = " ++ snd nv ++ NL) ++
             fold_right append ""
               (map (fun nv0 => line_of (fst nv0) (snd nv0)) nvs))
      with ((fst nv ++ " = " ++ snd nv) ++ NL ++
            fold_right append ""
              (map (fun nv0 => line_of (fst nv0) (snd nv0)) nvs))
      by (rewrite !append_assoc_str; reflexivity).
    rewrite split_lines_from_line by exact Hnv. rewrite IH. reflexivity.
Qed.

Lemma lines_eq (h : kvm_h) :
  lines h =
  map (fun nv => line_of (fst nv) (snd nv))
      (combine names (printed_values h)).
Proof. reflexivity. Qed.

Lemma printed_values_digits (h : kvm_h) :
  Forall (fun d => d <> "" /\ all_digits d = true) (printed_values h).
Proof.
  unfold printed_values. apply Forall_map, Forall_forall. intros c _.
  split; [apply conv_lu_nonempty | apply conv_lu_decimal].
Qed.

Lemma name_value_no_newline (n d : string) :
  no_newline n = true -> all_digits d = true ->
  no_newline (n ++ " = " ++ d) = true.
Proof.
  intros Hn Hd. rewrite !no_newline_app, Hn.
  rewrite (all_digits_no_newline d Hd). reflexivity.
Qed.

Lemma lines_shape (ns : list string) :
  forall ds,
    Forall (fun n => no_newline n = true) ns ->
    Forall (fun d => d <> "" /\ all_digits d = true) ds ->
    List.length ns = List.length ds ->
    Forall (fun nv => no_newline (fst nv ++ " = " ++ snd nv) = true)
           (combine ns ds) /\
    Forall2 line_shape ns
            (map (fun nv => fst nv ++ " = " ++ snd nv) (combine ns ds)).
Proof.
  induction ns as [| n ns IH]; intros [| d ds] Hns Hds Hlen;
    cbn [combine map List.length] in *; try discriminate.
  - split; constructor.
  - inversion Hns as [| ? ? Hn Hns']; subst.
    inversion Hds as [| ? ? [Hne Hd] Hds']; subst.
    destruct (IH ds Hns' Hds') as [Hnl Hshape]; [congruence |].
    split; constructor; try assumption.
    + cbn [fst snd]. apply name_value_no_newline; assumption.
    + exists d. cbn [fst snd]. repeat split; assumption.
Qed.

(** The output splits into seven lines [NAME = <digits>], names in the
    program's order, and nothing after the last newline. *)
Lemma output_shape (h : kvm_h) :
  exists ls,
    split_lines (output h) = (ls, "") /\ Forall2 line_shape names ls.
Proof.
  destruct (lines_shape names (printed_values h)) as [Hnl Hshape].
  - repeat constructor.
  - apply printed_values_digits.
  - reflexivity.
  - eexists. split; [| exact Hshape].
    unfold output. rewrite lines_eq.
    apply split_lines_terminated. exact Hnl.
Qed.

End Text.

(* ================================================================= *)
(** ** The output of a run *)

Section Output.

Variable h : kvm_h.

Lemma main_normal (w : world) :
  normal_run w = true ->
  exists w',
    main h w = Some (tt, w') /\
    stdout w' = stdout w ++ output h /\
    stdout_error w' = stdout_error w.
Proof.
  intros Hok. eexists. split; [apply main_eq |]. split.
  - rewrite fold_attempt_stdout. f_equal.
    apply delivered_all. exact Hok.
  - rewrite fold_attempt_error.
    change (List.length (combine names (constants h))) with 7%nat.
    unfold normal_run in Hok. rewrite Hok. apply orb_false_r.
Qed.

Lemma main_calls (w : world) :
  exists w' evs,
    main h w = Some (tt, w') /\
    w' = fold_left attempt (combine names (constants h)) w /\
    trace w' = (trace w ++ evs)%list /\
    calls_of evs =
    map (fun nc => (format_of (fst nc), [snd nc]))
        (combine names (constants h)).
Proof.
  destruct (fold_attempt_trace (combine names (constants h)) w)
    as (evs & Htr & Hcalls).
  eexists. exists evs. split; [apply main_eq |].
  split; [reflexivity |]. split; assumption.
Qed.

Lemma vformat_call (nc : string * cconst) :
  In nc (combine names (constants h)) ->
  vformat (format_of (fst nc)) [snd nc] = Some (call_line nc).
Proof.
  intros Hin. cbn [combine names constants In] in Hin.
  repeat (destruct Hin as [<- | Hin]; [reflexivity |]).
  contradiction.
Qed.

(** Every call of [main] uses the one conversion [%lu]: its argument has
    the expected type exactly when the header gives the constant the
    type [unsigned long]. *)
Lemma call_agrees_iff_ulong (nc : string * cconst) :
  In nc (combine names (constants h)) ->
  format_args_agree (format_of (fst nc)) [snd nc] =
  ctype_eqb Tulong (ctype_of (snd nc)).
Proof.
  intros Hin. cbn [combine names constants In] in Hin.
  repeat (destruct Hin as [<- | Hin]; [apply andb_true_r |]).
  contradiction.
Qed.

(** C1: in every run the program makes exactly seven write requests on
    standard output, which expand to the seven lines; when the writes
    succeed standard output grows by exactly these lines; the text
    consists of seven lines [NAME = <non-negative integer>], the names
    being the fixed list in its order, each line terminated by a
    newline and nothing following the last. *)
Theorem seven_lines_written (w : world) :
  exists w' evs,
    main h w = Some (tt, w') /\
    trace w' = (trace w ++ evs)%list /\
    map (fun e => vformat (ev_format e) (ev_args e)) evs =
      map Some (lines h) /\
    (normal_run w = true -> stdout w' = stdout w ++ output h) /\
    exists ls,
      split_lines (output h) = (ls, "") /\ Forall2 line_shape names ls.
Proof.
  destruct (main_calls w) as (w' & evs & Hmain & _ & Htr & Hcalls).
  exists w', evs. split; [exact Hmain |]. split; [exact Htr |].
  split; [| split].
  - transitivity (map (fun fa => vformat (fst fa) (snd fa)) (calls_of evs)).
    + unfold calls_of. rewrite map_map. reflexivity.
    + rewrite Hcalls. unfold lines. rewrite !map_map.
      apply map_ext_in. intros nc Hin. cbn [fst snd].
      apply vformat_call. exact Hin.
  - intros Hok. destruct (main_normal w Hok) as (w2 & Hmain2 & Hout & _).
    congruence.
  - apply output_shape.
Qed.

(** C2: when the constants are unsigned values that fit an [unsigned
    long], the value field of each of the seven lines is the decimal
    representation of the corresponding constant. *)
Theorem values_echoed (w : world) :
  (forall c, In c (constants h) -> 0 <= value_of c <= ULONG_MAX) ->
  normal_run w = true ->
  exists w' ds,
    main h w = Some (tt, w') /\
    stdout w' =
      stdout w ++
      fold_right append ""
        (map (fun nv => line_of (fst nv) (snd nv)) (combine names ds)) /\
    Forall2 (fun c d => decimal_of (value_of c) d) (constants h) ds.
Proof.
  intros Hrange Hok.
  destruct (main_normal w Hok) as (w' & Hmain & Hout & _).
  exists w', (printed_values h). split; [exact Hmain |].
  split; [exact Hout |].
  unfold printed_values.
  induction (constants h) as [| c cs IH]; cbn [map]; constructor.
  - rewrite <- (to_ulong_id (value_of c)) at 1
      by (apply Hrange; left; reflexivity).
    apply conv_lu_decimal.
  - apply IH. intros c' Hc'. apply Hrange. right. exact Hc'.
Qed.

End Output.

(** With the Linux x86-64 header, started with nothing written and every
    write accepted, standard output ends up holding exactly the seven
    lines. *)
Lemma seven_lines_written_x86_64 :
  exists w',
    main LinuxUapi.x86_64 quiet_world = Some (tt, w') /\
    stdout w' = output LinuxUapi.x86_64.
Proof.
  destruct (seven_lines_written LinuxUapi.x86_64 quiet_world)
    as (w' & evs & Hmain & _ & _ & Hout & _).
  exists w'. split; [exact Hmain | apply Hout; reflexivity].
Defined.

(** The constants of the Linux x86-64 header fit an [unsigned long], so
    each is echoed in decimal. *)
Lemma values_echoed_x86_64 :
  (forall c, In c (constants LinuxUapi.x86_64) ->
     0 <= value_of c <= ULONG_MAX) /\
  normal_run quiet_world = true /\
  exists w' ds,
    main LinuxUapi.x86_64 quiet_world = Some (tt, w') /\
    stdout w' =
      stdout quiet_world ++
      fold_right append ""
        (map (fun nv => line_of (fst nv) (snd nv)) (combine names ds)) /\
    Forall2 (fun c d => decimal_of (value_of c) d)
            (constants LinuxUapi.x86_64) ds.
Proof.
  assert (Hrange : forall c, In c (constants LinuxUapi.x86_64) ->
                     0 <= value_of c <= ULONG_MAX).
  { intros c Hc. vm_compute in Hc.
    repeat (destruct Hc as [<- | Hc];
            [vm_compute; split; intros Hcmp; discriminate Hcmp |]).
    contradiction. }
  split; [exact Hrange |]. split; [reflexivity |].
  apply (values_echoed LinuxUapi.x86_64 quiet_world Hrange).
  reflexivity.
Defined.

(* ================================================================= *)
(** ** Runs compared *)

Section Runs.

Variable h : kvm_h.

Lemma delivered_same (ok1 ok2 : nat -> bool) (ls : list string) :
  forall k1 k2,
    (forall i, (i < List.length ls)%nat -> ok1 (k1 + i)%nat = ok2 (k2 + i)%nat) ->
    delivered ok1 k1 ls = delivered ok2 k2 ls.
Proof.
  induction ls as [| l ls IH]; intros k1 k2 Hsame;
    cbn [delivered List.length] in *.
  - reflexivity.
  - rewrite (IH (S k1) (S k2)).
    + pose proof (Hsame 0%nat ltac:(lia)) as H0.
      rewrite !Nat.add_0_r in H0. rewrite H0. reflexivity.
    + intros i Hi. pose proof (Hsame (S i) ltac:(lia)) as HS.
      rewrite !Nat.add_succ_r in HS. exact HS.
Qed.

Lemma accepts_from_spec (ok : nat -> bool) (n : nat) :
  forall k,
    accepts_from ok k n = true <->
    (forall i, (i < n)%nat -> ok (k + i)%nat = true).
Proof.
  induction n as [| n IH]; intros k; cbn [accepts_from].
  - split; [intros _ i Hi; lia | reflexivity].
  - rewrite andb_true_iff, IH. split.
    + intros [H0 Hrest] [| i] Hi.
      * rewrite Nat.add_0_r. exact H0.
      * rewrite Nat.add_succ_r. apply Hrest. lia.
    + intros Hall. split.
      * rewrite <- (Nat.add_0_r k). apply Hall. lia.
      * intros i Hi. replace (S k + i)%nat with (k + S i)%nat by lia.
        apply Hall. lia.
Qed.

(** C3: for a fixed header, two runs on a platform that treats their
    writes alike append the same bytes to standard output; in normal
    runs these bytes are the fixed string [output h]. *)
Theorem output_deterministic (w1 w2 : world) :
  (forall i, (i < 7)%nat ->
     stdout_accepts w1 (List.length (trace w1) + i)%nat =
     stdout_accepts w2 (List.length (trace w2) + i)%nat) ->
  exists out w1' w2',
    main h w1 = Some (tt, w1') /\
    main h w2 = Some (tt, w2') /\
    stdout w1' = stdout w1 ++ out /\
    stdout w2' = stdout w2 ++ out /\
    (normal_run w1 = true -> out = output h).
Proof.
  intros Hsame.
  exists (delivered (stdout_accepts w1) (List.length (trace w1)) (lines h)).
  do 2 eexists. split; [apply main_eq |]. split; [apply main_eq |].
  split; [apply fold_attempt_stdout |]. split.
  - rewrite fold_attempt_stdout. f_equal. symmetry.
    apply delivered_same. exact Hsame.
  - intros Hok. apply delivered_all. exact Hok.
Qed.

(** C6: the program reads no input.  Started with any other
    command-line arguments, environment variables, file-system
    contents and standard input, the run is the same run: the final
    state differs in these inputs only, so standard output and the exit
    status are identical. *)
Theorem input_independent (w : world) (a : list string)
    (e f : list (string * string)) (i : string) :
  exists w' s,
    run h w = Some (w', s) /\
    run h (with_inputs a e f i w) = Some (with_inputs a e f i w', s) /\
    stdout (with_inputs a e f i w') = stdout w' /\
    stdout_error (with_inputs a e f i w') = stdout_error w'.
Proof.
  unfold run. rewrite !main_eq, fold_attempt_with_inputs.
  do 2 eexists. repeat split.
Qed.

(** C7: a run leaves the arguments, the environment, the file system,
    standard input and standard error as they were; all it does is make
    seven [printf] calls on standard output, which in a normal run
    grows by the seven lines. *)
Theorem only_stdout_changes (w : world) :
  exists w' evs,
    main h w = Some (tt, w') /\
    argv w' = argv w /\ environ w' = environ w /\ files w' = files w /\
    stdin_rest w' = stdin_rest w /\ stderr w' = stderr w /\
    trace w' = (trace w ++ evs)%list /\ List.length evs = 7%nat /\
    List.length (lines h) = 7%nat /\
    (normal_run w = true ->
     stdout w' = stdout w ++ output h /\
     stdout_error w' = stdout_error w).
Proof.
  destruct (main_calls h w) as (w' & evs & Hmain & Hw' & Htr & Hcalls).
  exists w', evs. split; [exact Hmain |].
  pose proof (fold_attempt_frame (combine names (constants h)) w) as Hfr.
  cbv zeta in Hfr. rewrite <- Hw' in Hfr.
  destruct Hfr as (Ha & He & Hf & Hi & Herr & _).
  repeat (split; [assumption |]).
  split; [| split; [reflexivity |]].
  - apply (f_equal (@List.length _)) in Hcalls.
    unfold calls_of in Hcalls. rewrite !length_map in Hcalls. exact Hcalls.
  - intros Hok. destruct (main_normal h w Hok) as (w2 & Hmain2 & Hout & He2).
    assert (w2 = w') by congruence. subst w2. split; assumption.
Qed.

(** C8: for every state of the process and of the platform the program
    runs through and makes the same seven calls, whatever each write
    returned: a refused write is not retried and nothing is written to
    standard error.  The output is complete unless the platform refuses
    a write, in which case only the stream's error indicator tells. *)
Theorem write_failure_unhandled (w : world) :
  exists w' evs,
    main h w = Some (tt, w') /\
    trace w' = (trace w ++ evs)%list /\
    calls_of evs =
      map (fun nc => (format_of (fst nc), [snd nc]))
          (combine names (constants h)) /\
    stderr w' = stderr w /\
    stdout w' =
      stdout w ++
      delivered (stdout_accepts w) (List.length (trace w)) (lines h) /\
    (normal_run w = true ->
     stdout w' = stdout w ++ output h /\ stdout_error w' = stdout_error w) /\
    (normal_run w = false -> stdout_error w' = true).
Proof.
  destruct (main_calls h w) as (w' & evs & Hmain & Hw' & Htr & Hcalls).
  exists w', evs. split; [exact Hmain |].
  split; [exact Htr |]. split; [exact Hcalls |].
  split; [rewrite Hw'; apply fold_attempt_frame |].
  split; [rewrite Hw'; apply fold_attempt_stdout |]. split.
  - intros Hok. destruct (main_normal h w Hok) as (w2 & Hmain2 & Hout & He2).
    assert (w2 = w') by congruence. subst w2. split; assumption.
  - intros Hbad. rewrite Hw', fold_attempt_error.
    change (List.length (combine names (constants h))) with 7%nat.
    unfold normal_run in Hbad. rewrite Hbad. apply orb_true_r.
Qed.

(** C9: every run terminates: from any state [main] reaches its end
    after exactly seven calls, and the process exits with a status. *)
Theorem always_terminates (w : world) :
  exists w' s,
    main h w = Some (tt, w') /\
    run h w = Some (w', s) /\
    List.length (trace w') = (List.length (trace w) + 7)%nat.
Proof.
  destruct (main_calls h w) as (w' & evs & Hmain & _ & Htr & Hcalls).
  exists w', (exit_status w'). split; [exact Hmain |]. split.
  - unfold run. rewrite Hmain. reflexivity.
  - rewrite Htr, length_app. f_equal.
    apply (f_equal (@List.length _)) in Hcalls.
    unfold calls_of in Hcalls. rewrite !length_map in Hcalls. exact Hcalls.
Qed.

End Runs.

(** Two runs that differ in arguments, environment, files and input
    write the same bytes. *)
Lemma output_deterministic_x86_64 :
  exists out w1' w2',
    main LinuxUapi.x86_64 quiet_world = Some (tt, w1') /\
    main LinuxUapi.x86_64 busy_world = Some (tt, w2') /\
    stdout w1' = stdout quiet_world ++ out /\
    stdout w2' = stdout busy_world ++ out /\
    (normal_run quiet_world = true -> out = output LinuxUapi.x86_64).
Proof.
  apply (output_deterministic LinuxUapi.x86_64 quiet_world busy_world).
  intros i Hi. reflexivity.
Defined.

(** A run started with arguments, an environment and a file leaves them
    alone and writes the seven lines. *)
Lemma only_stdout_changes_x86_64 :
  exists w',
    main LinuxUapi.x86_64 busy_world = Some (tt, w') /\
    files w' = files busy_world /\ stderr w' = stderr busy_world /\
    stdout w' = stdout busy_world ++ output LinuxUapi.x86_64.
Proof.
  destruct (only_stdout_changes LinuxUapi.x86_64 busy_world)
    as (w' & evs & Hmain & _ & _ & Hfiles & _ & Herr & _ & _ & _ & Hout).
  exists w'. split; [exact Hmain |]. split; [exact Hfiles |].
  split; [exact Herr |]. apply Hout. reflexivity.
Defined.

(** With standard output closed the program still makes its seven calls;
    nothing reaches standard output or standard error, and the stream's
    error indicator is set. *)
Lemma write_failure_unhandled_closed_stdout :
  exists w',
    main LinuxUapi.x86_64 closed_stdout_world = Some (tt, w') /\
    List.length (trace w') = 7%nat /\
    stderr w' = "" /\ stdout w' = "" /\ stdout_error w' = true.
Proof.
  destruct (write_failure_unhandled LinuxUapi.x86_64 closed_stdout_world)
    as (w' & evs & Hmain & Htr & Hcalls & Herr & Hout & _ & Hbad).
  exists w'. split; [exact Hmain |]. split; [| split; [exact Herr |]].
  - rewrite Htr. apply (f_equal (@List.length _)) in Hcalls.
    unfold calls_of in Hcalls. rewrite length_map in Hcalls. exact Hcalls.
  - split; [exact Hout | apply Hbad; reflexivity].
Defined.

(* ================================================================= *)
(** ** The exit status *)

Section ExitStatus.

Variable h : kvm_h.

Lemma last_line_length :
  (18 <= String.length (call_line ("KVM_SET_SREGS", KVM_SET_SREGS h)) <= 37)%nat.
Proof.
  unfold call_line, line_of. cbn [fst snd].
  rewrite !length_append_str.
  pose proof (conv_lu_length (KVM_SET_SREGS h)) as Hd.
  unfold ULONG_DIGITS in Hd. cbn [String.length NL]. lia.
Qed.

(** C4, as the code has it: [main] is [void] and returns no value, so
    the program sets no exit code of its own.  After a normal run the
    status the host reads is what the last [printf] returned, the
    number of bytes of the last line: between 18 and 37, never 0. *)
Theorem exit_status_is_last_count (w : world) :
  normal_run w = true ->
  exists w' s,
    run h w = Some (w', s) /\
    s = Z.of_nat (String.length (call_line ("KVM_SET_SREGS", KVM_SET_SREGS h))) /\
    18 <= s <= 37.
Proof.
  intros Hok. unfold run. rewrite main_eq. do 2 eexists.
  split; [reflexivity |].
  pose proof last_line_length as Hlen.
  assert (Hreg :
    ret_reg (fold_left attempt (combine names (constants h)) w) =
    Z.of_nat (String.length (call_line ("KVM_SET_SREGS", KVM_SET_SREGS h)))).
  { change (combine names (constants h))
      with ([ ("KVM_GET_API_VERSION", KVM_GET_API_VERSION h);
              ("KVM_CREATE_VM", KVM_CREATE_VM h);
              ("KVM_SET_USER_MEMORY_REGION", KVM_SET_USER_MEMORY_REGION h);
              ("KVM_CREATE_VCPU", KVM_CREATE_VCPU h);
              ("KVM_GET_VCPU_MMAP_SIZE", KVM_GET_VCPU_MMAP_SIZE h);
              ("KVM_GET_SREGS", KVM_GET_SREGS h) ]
            ++ [("KVM_SET_SREGS", KVM_SET_SREGS h)])%list.
    apply fold_attempt_ret_reg. exact Hok. }
  unfold exit_status. rewrite Hreg.
  rewrite Z.mod_small by lia. split; [reflexivity | lia].
Qed.

End ExitStatus.

(** With the Linux x86-64 header the status of a normal run is the
    length of the last line. *)
Lemma exit_status_is_last_count_x86_64 :
  normal_run quiet_world = true /\
  exists w' s,
    run LinuxUapi.x86_64 quiet_world = Some (w', s) /\
    s = Z.of_nat (String.length
          (call_line ("KVM_SET_SREGS", KVM_SET_SREGS LinuxUapi.x86_64))) /\
    18 <= s <= 37.
Proof.
  split; [reflexivity |].
  apply (exit_status_is_last_count LinuxUapi.x86_64 quiet_world).
  reflexivity.
Defined.

(* ================================================================= *)
(** ** With the Linux header *)

Section Linux.

Import LinuxUapi.

Lemma mod_mod_256 (v m q : Z) :
  m = q * 256 -> (v mod m) mod 256 = v mod 256.
Proof.
  intros ->. apply Z.mod_mod_divide. exists q. reflexivity.
Qed.

Lemma wrap_low_byte (t : ctype) (v : Z) : wrap t v mod 256 = v mod 256.
Proof.
  unfold wrap.
  destruct t; cbn [ctype_bits ctype_unsigned].
  - change (2 ^ 32 / 2) with (8388608 * 256).
    rewrite <- (Z.mod_add _ 8388608 256) by lia.
    replace ((v + 8388608 * 256) mod 2 ^ 32 - 8388608 * 256 + 8388608 * 256)
      with ((v + 8388608 * 256) mod 2 ^ 32) by lia.
    rewrite (mod_mod_256 _ _ 16777216) by reflexivity.
    apply Z.mod_add. lia.
  - apply (mod_mod_256 _ _ 16777216). reflexivity.
  - change (2 ^ 64 / 2) with (36028797018963968 * 256).
    rewrite <- (Z.mod_add _ 36028797018963968 256) by lia.
    replace ((v + 36028797018963968 * 256) mod 2 ^ 64
             - 36028797018963968 * 256 + 36028797018963968 * 256)
      with ((v + 36028797018963968 * 256) mod 2 ^ 64) by lia.
    rewrite (mod_mod_256 _ _ 72057594037927936) by reflexivity.
    apply Z.mod_add. lia.
  - apply (mod_mod_256 _ _ 72057594037927936). reflexivity.
Qed.

Lemma lor_low_byte (a b : Z) :
  Z.lor a b mod 256 = Z.lor (a mod 256) (b mod 256).
Proof.
  change 256 with (2 ^ 8). rewrite <- !Z.land_ones by lia.
  apply Z.land_lor_distr_l.
Qed.

Lemma c_or_low_byte (a b : cconst) :
  value_of (c_or a b) mod 256 =
  Z.lor (value_of a mod 256) (value_of b mod 256).
Proof.
  unfold c_or. cbn [value_of]. rewrite lor_low_byte, !wrap_low_byte.
  reflexivity.
Qed.

Lemma c_shl_low_byte (a : cconst) (k : Z) :
  8 <= k -> value_of (c_shl a k) mod 256 = 0.
Proof.
  intros Hk. unfold c_shl. cbn [value_of].
  rewrite wrap_low_byte, Z.shiftl_mul_pow2 by lia.
  replace k with ((k - 8) + 8) by lia.
  rewrite Z.pow_add_r by lia. change (2 ^ 8) with 256.
  rewrite Z.mul_assoc. apply Z.mod_mul. lia.
Qed.

Lemma c_shl_0_low_byte (a : cconst) :
  value_of (c_shl a 0) mod 256 = value_of a mod 256.
Proof.
  unfold c_shl. cbn [value_of]. rewrite wrap_low_byte, Z.shiftl_0_r.
  reflexivity.
Qed.

(** The low byte of an ioctl number is its command number. *)
Lemma IOC_low_byte (dir type nr size : cconst) :
  value_of (_IOC dir type nr size) mod 256 = value_of nr mod 256.
Proof.
  unfold _IOC. rewrite !c_or_low_byte.
  rewrite (c_shl_low_byte dir), (c_shl_low_byte type), (c_shl_low_byte size)
    by (vm_compute; discriminate).
  change _IOC_NRSHIFT with 0. rewrite c_shl_0_low_byte.
  rewrite !Z.lor_0_l, Z.lor_0_r. reflexivity.
Qed.

Lemma printed_low_byte (c : cconst) :
  atou (conv_lu c) mod 256 = value_of c mod 256.
Proof.
  destruct (conv_lu_decimal c) as (_ & -> & _).
  unfold to_ulong. apply (mod_mod_256 _ _ 72057594037927936). reflexivity.
Qed.

Variables sizeof_memory_region sizeof_sregs : Z.

(** The numerals of the seven Linux constants are pairwise distinct,
    whatever the sizes of the two structures: the constants differ in
    their command numbers. *)
Theorem linux_values_distinct :
  NoDup (printed_values (kvm sizeof_memory_region sizeof_sregs)).
Proof.
  apply (NoDup_map_inv (fun d => atou d mod 256)).
  unfold printed_values. rewrite map_map.
  rewrite (map_ext _ (fun c => value_of c mod 256) printed_low_byte).
  unfold constants, kvm. cbn [map KVM_GET_API_VERSION KVM_CREATE_VM
    KVM_SET_USER_MEMORY_REGION KVM_CREATE_VCPU KVM_GET_VCPU_MMAP_SIZE
    KVM_GET_SREGS KVM_SET_SREGS].
  unfold _IO, _IOR, _IOW. rewrite !IOC_low_byte.
  cbn [value_of int_lit].
  change (NoDup [0; 1; 70; 65; 4; 131; 132]).
  repeat (constructor; [cbn [In]; lia |]). constructor.
Qed.

(** C5, evaluated with the Linux header: in four of the seven calls the
    argument is an [unsigned int] where [%lu] expects an [unsigned
    long]; only the three constants that encode a [sizeof] have the
    expected type. *)
Theorem linux_format_mismatch (w : world) :
  exists w' evs,
    main (kvm sizeof_memory_region sizeof_sregs) w = Some (tt, w') /\
    trace w' = (trace w ++ evs)%list /\
    map event_agrees evs = [false; false; true; false; false; true; true].
Proof.
  destruct (main_calls (kvm sizeof_memory_region sizeof_sregs) w)
    as (w' & evs & Hmain & _ & Htr & Hcalls).
  exists w', evs. split; [exact Hmain |]. split; [exact Htr |].
  transitivity
    (map (fun fa => format_args_agree (fst fa) (snd fa)) (calls_of evs)).
  - unfold calls_of. rewrite map_map. reflexivity.
  - rewrite Hcalls. reflexivity.
Qed.

End Linux.

(** C4 as stated fails: with the Linux x86-64 header a normal run ends
    with status 27, the length of the line [KVM_SET_SREGS = 1094233732],
    not 0. *)
Lemma exit_status_nonzero_x86_64 :
  normal_run quiet_world = true /\
  (exists w', run LinuxUapi.x86_64 quiet_world = Some (w', 27)) /\
  ~ (exists w', run LinuxUapi.x86_64 quiet_world = Some (w', 0)).
Proof.
  split; [reflexivity |]. split.
  - eexists. vm_compute. reflexivity.
  - intros [w' Hrun]. vm_compute in Hrun. discriminate Hrun.
Qed.

(* ================================================================= *)
(** ** Further properties of [main] *)

Section Further.

Lemma append_cancel_l (a b c : string) : a ++ b = a ++ c -> b = c.
Proof.
  induction a as [| x a IH]; cbn [append]; intros H;
    [exact H | injection H as H; auto].
Qed.

Lemma name_values_inj (ns : list string) :
  forall ds1 ds2,
    List.length ds1 = List.length ns ->
    List.length ds2 = List.length ns ->
    map (fun nv => fst nv ++ " = " ++ snd nv) (combine ns ds1) =
    map (fun nv => fst nv ++ " = " ++ snd nv) (combine ns ds2) ->
    ds1 = ds2.
Proof.
  induction ns as [| n ns IH]; intros [| d1 ds1] [| d2 ds2] H1 H2 Heq;
    cbn [List.length combine map fst snd] in *; try discriminate.
  - reflexivity.
  - injection Heq as Hhd Htl.
    apply append_cancel_l in Hhd. apply (append_cancel_l " = ") in Hhd.
    f_equal; [exact Hhd |].
    apply IH; [lia | lia | exact Htl].
Qed.

Lemma output_split (h : kvm_h) :
  split_lines (output h) =
  (map (fun nv => fst nv ++ " = " ++ snd nv)
       (combine names (printed_values h)), "").
Proof.
  destruct (lines_shape names (printed_values h)) as [Hnl _].
  - repeat constructor.
  - apply printed_values_digits.
  - reflexivity.
  - unfold output. rewrite lines_eq.
    apply split_lines_terminated. exact Hnl.
Qed.

Lemma printed_values_of_values (h : kvm_h) :
  printed_values h =
  map (fun v => utoa (pred ULONG_DIGITS) v "")
      (map (fun c => to_ulong (value_of c)) (constants h)).
Proof. unfold printed_values. rewrite map_map. reflexivity. Qed.

Lemma values_of_printed_values (h : kvm_h) :
  map atou (printed_values h) =
  map (fun c => to_ulong (value_of c)) (constants h).
Proof.
  unfold printed_values. rewrite map_map. apply map_ext.
  intros c. apply conv_lu_decimal.
Qed.

Lemma in_range_values (h : kvm_h) :
  (forall c, In c (constants h) -> 0 <= value_of c <= ULONG_MAX) ->
  map (fun c => to_ulong (value_of c)) (constants h) =
  map value_of (constants h).
Proof.
  intros Hrange. apply map_ext_in. intros c Hc.
  apply to_ulong_id, Hrange, Hc.
Qed.

(** For headers whose constants fit an [unsigned long], the text
    [output h] and the seven values determine each other. *)
Theorem output_determines_values (h1 h2 : kvm_h) :
  (forall c, In c (constants h1) -> 0 <= value_of c <= ULONG_MAX) ->
  (forall c, In c (constants h2) -> 0 <= value_of c <= ULONG_MAX) ->
  (output h1 = output h2 <->
   map value_of (constants h1) = map value_of (constants h2)).
Proof.
  intros Hr1 Hr2.
  rewrite <- (in_range_values h1 Hr1), <- (in_range_values h2 Hr2).
  split; intros Heq.
  - rewrite <- !values_of_printed_values. f_equal.
    apply (name_values_inj names); try reflexivity.
    pose proof (output_split h1) as H1. pose proof (output_split h2) as H2.
    rewrite Heq in H1. congruence.
  - unfold output. rewrite !lines_eq, !printed_values_of_values, Heq.
    reflexivity.
Qed.

(** X1: the text a normal run of [main] leaves on standard output
    determines the seven values.  Two runs, with headers whose constants
    fit an [unsigned long], that start from the same standard output and
    end with the same standard output were given the same seven values:
    headers that differ in a value give different output. *)
Theorem stdout_determines_values (h1 h2 : kvm_h) (w1 w2 : world) :
  (forall c, In c (constants h1) -> 0 <= value_of c <= ULONG_MAX) ->
  (forall c, In c (constants h2) -> 0 <= value_of c <= ULONG_MAX) ->
  normal_run w1 = true ->
  normal_run w2 = true ->
  stdout w1 = stdout w2 ->
  exists w1' w2',
    main h1 w1 = Some (tt, w1') /\
    main h2 w2 = Some (tt, w2') /\
    (stdout w1' = stdout w2' ->
     map value_of (constants h1) = map value_of (constants h2)).
Proof.
  intros Hr1 Hr2 Hok1 Hok2 Hstart.
  destruct (main_normal h1 w1 Hok1) as (w1' & Hmain1 & Hout1 & _).
  destruct (main_normal h2 w2 Hok2) as (w2' & Hmain2 & Hout2 & _).
  exists w1', w2'. split; [exact Hmain1 |]. split; [exact Hmain2 |].
  intros Hend. rewrite Hout1, Hout2, Hstart in Hend.
  apply append_cancel_l in Hend.
  apply (output_determines_values h1 h2 Hr1 Hr2). exact Hend.
Qed.

Lemma fold_attempt_last (l : list (string * cconst)) :
  forall w nc,
    ret_reg (fold_left attempt (l ++ [nc]) w) =
    if stdout_accepts w (List.length (trace w) + List.length l)%nat
    then Z.of_nat (String.length (call_line nc))
    else -1.
Proof.
  induction l as [| x l IH]; intros w nc;
    cbn [fold_left app List.length].
  - rewrite Nat.add_0_r. unfold attempt.
    destruct (stdout_accepts w (List.length (trace w))); reflexivity.
  - rewrite IH, attempt_accepts, attempt_trace_length.
    rewrite Nat.add_succ_r. reflexivity.
Qed.

(** X2: the status the host reads depends on the last of the seven
    writes only.  If that write succeeds the status is the length of the
    last line, whether or not earlier writes failed; if it fails the
    status is 255.  In no run is it 0. *)
Theorem exit_status_reflects_last_write (h : kvm_h) (w : world) :
  exists w' s,
    run h w = Some (w', s) /\
    s = (if stdout_accepts w (List.length (trace w) + 6)%nat
         then Z.of_nat (String.length
                (call_line ("KVM_SET_SREGS", KVM_SET_SREGS h)))
         else 255) /\
    s <> 0.
Proof.
  unfold run. rewrite main_eq. do 2 eexists. split; [reflexivity |].
  unfold exit_status.
  change (combine names (constants h))
    with ([ ("KVM_GET_API_VERSION", KVM_GET_API_VERSION h);
            ("KVM_CREATE_VM", KVM_CREATE_VM h);
            ("KVM_SET_USER_MEMORY_REGION", KVM_SET_USER_MEMORY_REGION h);
            ("KVM_CREATE_VCPU", KVM_CREATE_VCPU h);
            ("KVM_GET_VCPU_MMAP_SIZE", KVM_GET_VCPU_MMAP_SIZE h);
            ("KVM_GET_SREGS", KVM_GET_SREGS h) ]
          ++ [("KVM_SET_SREGS", KVM_SET_SREGS h)])%list.
  rewrite fold_attempt_last. cbn [List.length].
  pose proof (last_line_length h) as Hlen.
  destruct (stdout_accepts w (List.length (trace w) + 6)%nat).
  - rewrite Z.mod_small by lia. split; [reflexivity | lia].
  - split; [reflexivity | discriminate].
Qed.

Lemma delivered_length (ok : nat -> bool) (ls : list string) :
  forall k,
    (String.length (delivered ok k ls)
     <= String.length (fold_right append "" ls))%nat.
Proof.
  induction ls as [| l ls IH]; intros k; cbn [delivered fold_right].
  - apply Nat.le_refl.
  - rewrite !length_append_str. specialize (IH (S k)).
    destruct (ok k); cbn [String.length]; lia.
Qed.

Lemma output_length (h : kvm_h) :
  (156 <= String.length (output h) <= 289)%nat.
Proof.
  unfold output, lines, constants.
  cbn [names combine map fold_right]. unfold call_line, line_of.
  cbn [fst snd]. rewrite !length_append_str. cbn [String.length NL].
  pose proof (conv_lu_length (KVM_GET_API_VERSION h)).
  pose proof (conv_lu_length (KVM_CREATE_VM h)).
  pose proof (conv_lu_length (KVM_SET_USER_MEMORY_REGION h)).
  pose proof (conv_lu_length (KVM_CREATE_VCPU h)).
  pose proof (conv_lu_length (KVM_GET_VCPU_MMAP_SIZE h)).
  pose proof (conv_lu_length (KVM_GET_SREGS h)).
  pose proof (conv_lu_length (KVM_SET_SREGS h)).
  unfold ULONG_DIGITS in *. lia.
Qed.

(** X3: a run adds at most 289 bytes to standard output, whatever the
    header and whichever writes fail, and a normal run adds at least
    156. *)
Theorem output_size_bounded (h : kvm_h) (w : world) :
  exists w',
    main h w = Some (tt, w') /\
    (String.length (stdout w') <= String.length (stdout w) + 289)%nat /\
    (normal_run w = true ->
     (String.length (stdout w) + 156 <= String.length (stdout w'))%nat).
Proof.
  eexists. split; [apply main_eq |].
  rewrite fold_attempt_stdout, length_append_str.
  pose proof (output_length h) as Hlen.
  pose proof (delivered_length (stdout_accepts w) (lines h)
                (List.length (trace w))) as Hd.
  fold (lines h). fold (output h) in Hd. split; [lia |].
  intros Hok. rewrite (delivered_all _ (lines h)) by exact Hok.
  fold (output h). lia.
Qed.

Lemma forallb_via_map {A : Type} (f : A -> bool) (l : list A) :
  forallb f l = forallb (fun b : bool => b) (map f l).
Proof.
  induction l as [| x l IH]; cbn [forallb map]; [| rewrite IH]; reflexivity.
Qed.

(** X5: for every header, the seven calls all pass an argument of the
    type [%lu] expects exactly when the header gives all seven constants
    the type [unsigned long]. *)
Theorem calls_typed_iff_header_ulong (h : kvm_h) (w : world) :
  exists w' evs,
    main h w = Some (tt, w') /\
    trace w' = (trace w ++ evs)%list /\
    (forallb event_agrees evs = true <->
     forall c, In c (constants h) -> ctype_of c = Tulong).
Proof.
  destruct (main_calls h w) as (w' & evs & Hmain & _ & Htr & Hcalls).
  exists w', evs. split; [exact Hmain |]. split; [exact Htr |].
  assert (Hmap : map event_agrees evs =
                 map (fun c => ctype_eqb Tulong (ctype_of c)) (constants h)).
  { transitivity
      (map (fun fa => format_args_agree (fst fa) (snd fa)) (calls_of evs)).
    - unfold calls_of. rewrite map_map. reflexivity.
    - rewrite Hcalls, map_map. cbn [fst snd].
      rewrite (map_ext_in _ (fun nc => ctype_eqb Tulong (ctype_of (snd nc))));
        [reflexivity |].
      intros nc Hin. apply (call_agrees_iff_ulong h nc Hin). }
  assert (Hall : forallb event_agrees evs =
                 forallb (fun c => ctype_eqb Tulong (ctype_of c)) (constants h)).
  { rewrite (forallb_via_map event_agrees), Hmap.
    symmetry. apply forallb_via_map. }
  rewrite Hall, forallb_forall. split; intros Hc c Hin.
  - specialize (Hc c Hin). destruct (ctype_of c); now try discriminate.
  - rewrite (Hc c Hin). reflexivity.
Qed.

End Further.

(** A run with the Linux x86-64 header and a run with the same header
    cast to [unsigned long], started in different environments. *)
Lemma stdout_determines_values_x86_64 :
  (forall c, In c (constants LinuxUapi.x86_64) ->
     0 <= value_of c <= ULONG_MAX) /\
  (forall c, In c (constants (cast_to_ulong LinuxUapi.x86_64)) ->
     0 <= value_of c <= ULONG_MAX) /\
  normal_run quiet_world = true /\
  normal_run busy_world = true /\
  stdout quiet_world = stdout busy_world /\
  exists w1' w2',
    main LinuxUapi.x86_64 quiet_world = Some (tt, w1') /\
    main (cast_to_ulong LinuxUapi.x86_64) busy_world = Some (tt, w2') /\
    (stdout w1' = stdout w2' ->
     map value_of (constants LinuxUapi.x86_64) =
     map value_of (constants (cast_to_ulong LinuxUapi.x86_64))).
Proof.
  assert (Hr1 : forall c, In c (constants LinuxUapi.x86_64) ->
                  0 <= value_of c <= ULONG_MAX).
  { intros c Hc. vm_compute in Hc.
    repeat (destruct Hc as [<- | Hc];
            [vm_compute; split; intros Hcmp; discriminate Hcmp |]).
    contradiction. }
  assert (Hr2 : forall c, In c (constants (cast_to_ulong LinuxUapi.x86_64)) ->
                  0 <= value_of c <= ULONG_MAX).
  { intros c Hc. vm_compute in Hc.
    repeat (destruct Hc as [<- | Hc];
            [vm_compute; split; intros Hcmp; discriminate Hcmp |]).
    contradiction. }
  split; [exact Hr1 |]. split; [exact Hr2 |].
  split; [reflexivity |]. split; [reflexivity |]. split; [reflexivity |].
  exact (stdout_determines_values LinuxUapi.x86_64
           (cast_to_ulong LinuxUapi.x86_64) quiet_world busy_world
           Hr1 Hr2 eq_refl eq_refl eq_refl).
Defined.

(* ================================================================= *)
(** ** Distinct values *)

Section Distinct.

Variable h : kvm_h.



End Distinct.


